(** * The Zora project record of packages/config/src/layer2s/zora.ts

    A shallow embedding of the module [zora.ts]: the JavaScript values it
    builds (object literals, arrays, the spread operator), the calls it
    makes to the discovery accessor and to the shared tables of
    [./common], and the record [zora] it exports. *)

From Stdlib Require Import ZArith String List Bool.
From stdpp Require Import base tactics option list strings gmap.

Set Warnings "-register-all".

Local Open Scope string_scope.
Local Open Scope Z_scope.

(** ** JavaScript values *)

(** The values that occur in the record: [null], booleans, numbers (all of
    them integers here), strings, arrays and objects.  An object keeps its
    properties in insertion order, as JavaScript does. *)
Inductive Value : Type :=
| VNull : Value
| VBool : bool -> Value
| VNum : Z -> Value
| VStr : string -> Value
| VArr : list Value -> Value
| VObj : list (string * Value) -> Value.

Abbreviation Obj := (list (string * Value)).

Module Js.

(** [o[k]]: the value of the own property [k], if there is one. *)
Fixpoint get (k : string) (o : Obj) : option Value :=
  match o with
  | [] => None
  | (k', v) :: rest => if String.eqb k k' then Some v else get k rest
  end.

(** [o[k] = v]: an existing property keeps its place and takes the new
    value, a new property goes last. *)
Fixpoint set (k : string) (v : Value) (o : Obj) : Obj :=
  match o with
  | [] => [(k, v)]
  | (k', v') :: rest =>
      if String.eqb k k' then (k, v) :: rest else (k', v') :: set k v rest
  end.

(** [{...o, ...src}]: the own properties of [src] are assigned to [o] one
    after the other. *)
Definition spread (o src : Obj) : Obj :=
  fold_left (fun acc kv => set (fst kv) (snd kv) acc) src o.

(** The members of an object literal: [k: v] and [...o]. *)
Inductive Member : Type :=
| Field : string -> Value -> Member
| Spread : Obj -> Member.

Definition define (o : Obj) (m : Member) : Obj :=
  match m with
  | Field k v => set k v o
  | Spread src => spread o src
  end.

(** An object literal [{m1, ..., mn}] is evaluated left to right. *)
Definition object (ms : list Member) : Obj := fold_left define ms [].

Definition keys (o : Obj) : list string := map fst o.

End Js.

Notation "k ::= v" := (Js.Field k v) (at level 60, no associativity).
Notation "'...' o" := (Js.Spread o) (at level 60, no associativity).
Notation "'{{' ms '}}'" := (VObj (Js.object ms)) (at level 0, ms at level 200).

(** ** Failures of the construction *)

(** The error taxonomy of the catalogue build. *)
Inductive Error : Type :=
| UnknownKey
| MissingField (contractName fieldName : string)
| UnknownRole (role : string)
| InvalidAddress
| InvalidTimestamp
| SchemaViolation.

Inductive Result (A : Type) : Type :=
| Ok : A -> Result A
| Err : Error -> Result A.
Arguments Ok {A} _.
Arguments Err {A} _.

Definition bind {A B : Type} (m : Result A) (f : A -> Result B) : Result B :=
  match m with
  | Ok a => f a
  | Err e => Err e
  end.

Notation "'let*' x ':=' m 'in' k" := (bind m (fun x => k))
  (at level 10, x name, m at level 100, k at level 200, right associativity).

(** ** The stage classifier *)

Module Stages.

(** The criteria of the three tiers, as the record passes them to
    [getStage]: every field is a boolean or [null]. *)
Record Stage0 : Type := {
  callsItselfRollup : option bool;
  stateRootsPostedToL1 : option bool;
  dataAvailabilityOnL1 : option bool;
  rollupNodeSourceAvailable : option bool }.

Record Stage1 : Type := {
  stateVerificationOnL1 : option bool;
  fraudProofSystemAtLeast5Outsiders : option bool;
  usersHave7DaysToExit : option bool;
  usersCanExitWithoutCooperation : option bool;
  securityCouncilProperlySetUp : option bool }.

Record Stage2 : Type := {
  proofSystemOverriddenOnlyInCaseOfABug : option bool;
  fraudProofSystemIsPermissionless : option bool;
  delayWith30DExitWindow : option bool }.

Record Criteria : Type := {
  stage0 : Stage0;
  stage1 : Stage1;
  stage2 : Stage2 }.

Record Context : Type := { rollupNodeLink : string }.

Inductive Tier : Type := Tier0 | Tier1 | Tier2.

(** The names of the criteria. *)
Inductive Field : Type :=
| CallsItselfRollup | StateRootsPostedToL1 | DataAvailabilityOnL1
| RollupNodeSourceAvailable
| StateVerificationOnL1 | FraudProofSystemAtLeast5Outsiders
| UsersHave7DaysToExit | UsersCanExitWithoutCooperation
| SecurityCouncilProperlySetUp
| ProofSystemOverriddenOnlyInCaseOfABug | FraudProofSystemIsPermissionless
| DelayWith30DExitWindow.

Definition tierFields (t : Tier) : list Field :=
  match t with
  | Tier0 => [CallsItselfRollup; StateRootsPostedToL1; DataAvailabilityOnL1;
              RollupNodeSourceAvailable]
  | Tier1 => [StateVerificationOnL1; FraudProofSystemAtLeast5Outsiders;
              UsersHave7DaysToExit; UsersCanExitWithoutCooperation;
              SecurityCouncilProperlySetUp]
  | Tier2 => [ProofSystemOverriddenOnlyInCaseOfABug;
              FraudProofSystemIsPermissionless; DelayWith30DExitWindow]
  end.

Definition getField (f : Field) (c : Criteria) : option bool :=
  match f with
  | CallsItselfRollup => callsItselfRollup (stage0 c)
  | StateRootsPostedToL1 => stateRootsPostedToL1 (stage0 c)
  | DataAvailabilityOnL1 => dataAvailabilityOnL1 (stage0 c)
  | RollupNodeSourceAvailable => rollupNodeSourceAvailable (stage0 c)
  | StateVerificationOnL1 => stateVerificationOnL1 (stage1 c)
  | FraudProofSystemAtLeast5Outsiders =>
      fraudProofSystemAtLeast5Outsiders (stage1 c)
  | UsersHave7DaysToExit => usersHave7DaysToExit (stage1 c)
  | UsersCanExitWithoutCooperation => usersCanExitWithoutCooperation (stage1 c)
  | SecurityCouncilProperlySetUp => securityCouncilProperlySetUp (stage1 c)
  | ProofSystemOverriddenOnlyInCaseOfABug =>
      proofSystemOverriddenOnlyInCaseOfABug (stage2 c)
  | FraudProofSystemIsPermissionless =>
      fraudProofSystemIsPermissionless (stage2 c)
  | DelayWith30DExitWindow => delayWith30DExitWindow (stage2 c)
  end.

(** The classification: a tier, none when not even the first tier is
    met, or the state of a record whose tier is not certain. *)
Inductive Classification : Type :=
| NoStage
| Stage (t : Tier)
| UnderReview.

Record StageResult : Type := {
  stage : Classification;
  links : Context }.

(** A field fails its tier only when it is [false]; [null] and [true]
    do not. *)
Definition holds (v : option bool) : bool :=
  match v with
  | Some false => false
  | _ => true
  end.

Definition isNull (v : option bool) : bool :=
  match v with
  | None => true
  | Some _ => false
  end.

Definition tierMet (c : Criteria) (t : Tier) : bool :=
  forallb (fun f => holds (getField f c)) (tierFields t).

(** The highest tier all of whose predecessors are met as well. *)
Definition highestTier (c : Criteria) : option Tier :=
  if tierMet c Tier0 then
    if tierMet c Tier1 then
      if tierMet c Tier2 then Some Tier2 else Some Tier1
    else Some Tier0
  else None.

(** The null-handling table: [required f] says that the classifier needs
    the field [f] of [stage1] or [stage2] to be known. *)
Definition Policy : Type := Field -> bool.

Definition underReview (required : Policy) (c : Criteria) : bool :=
  existsb (fun f => required f && isNull (getField f c))
          (tierFields Tier1 ++ tierFields Tier2).

(** Modelled from the spec: [getStage] is imported from
    [./common/stages/getStage], which is not among the sources.  The spec
    gives the algorithm: a record satisfies a tier only if every non-null
    field at that tier and below is true; the result is the highest tier
    fully satisfied, clamped to the under-review state if [stage1] or
    [stage2] hold nulls for fields the classifier deems required.  Which
    fields those are is left open by the spec, so the table is the
    argument [required].  The spec names no result for criteria that do
    not meet the first tier; the model answers [NoStage]. *)
Definition getStage (required : Policy) (c : Criteria) (ctx : Context)
  : StageResult :=
  {| stage := if underReview required c then UnderReview
              else match highestTier c with
                   | Some t => Stage t
                   | None => NoStage
                   end;
     links := ctx |}.

End Stages.

(** ** The shared tables and helpers the record imports *)

(** The constants and functions that [zora.ts] imports from [./common],
    [../discovery/values/hardcoded] and [../utils/formatSeconds].  Their
    modules are not among the sources: the record is built over any
    contents of them. *)
Record Tables : Type := {
  HARDCODED_OPTIMISM_SEQUENCING_WINDOW_SECONDS : Value;
  formatSeconds : Value -> string;
  OPTIMISTIC_ROLLUP_STATE_UPDATES_WARNING : Value;
  subtractOne : Value;
  makeBridgeCompatible : Obj -> Obj;
  RISK_VIEW_STATE_NONE : Obj;
  RISK_VIEW_DATA_ON_CHAIN : Obj;
  RISK_VIEW_EXIT_WINDOW : Value -> Value -> Obj;
  RISK_VIEW_SEQUENCER_SELF_SEQUENCE : Value -> Obj;
  RISK_VIEW_PROPOSER_CANNOT_WITHDRAW : Obj;
  RISK_VIEW_NATIVE_AND_CANONICAL : unit -> Obj;
  RISK_VIEW_VALIDATED_BY_ETHEREUM : Obj;
  DERIVATION_OPSTACK : string -> Value;
  DATA_AVAILABILITY_ON_CHAIN_CANONICAL : Obj;
  OPERATOR_CENTRALIZED_OPERATOR : Obj;
  FORCE_TRANSACTIONS_CANONICAL_ORDERING : Obj;
  EXITS_REGULAR : string -> string -> Obj;
  EXITS_FORCED : string -> Obj;
  EXITS_RISK_CENTRALIZED_VALIDATOR : Value;
  CONTRACTS_UPGRADE_NO_DELAY_RISK : Value;
  NUGGETS_THUMBNAILS_L2BEAT_03 : Value;
  NUGGETS_THUMBNAILS_OPTIMISM_04 : Value;
  NUGGETS_THUMBNAILS_MODULAR_ROLLUP : Value }.

(** The branded types of [@l2beat/shared-pure] carry a string or a
    number; the model keeps the carried value. *)
Definition EthereumAddress (s : string) : Value := VStr s.
Definition UnixTime (t : Z) : Value := VNum t.
Definition ProjectId (s : string) : Value := VStr s.

(** ** The discovery accessor *)

(** The methods of [ProjectDiscovery] that the record calls.  Each of them
    may fail. *)
Record ProjectDiscovery : Type := {
  getContractValue : string -> string -> Result Value;
  getEscrowDetails : Obj -> Result Obj;
  getMultisigPermission : string -> string -> Result (list Value);
  getOpStackPermissions : Obj -> Result (list Value);
  getOpStackContractDetails : Obj -> Result (list Value);
  getContractDetails : string -> Obj -> Result Value }.

(** The discovery snapshot: the collected values by contract and field
    name, and the discovered address of every role. *)
Record Snapshot : Type := {
  values : gmap (string * string) Value;
  roles : gmap string string }.

Module SpecModel.

(** Modelled from the spec: [getContractValue] is a method of
    [ProjectDiscovery], whose module [../discovery/ProjectDiscovery] is
    not among the sources.  It returns the value the snapshot holds for
    the contract and the field, and fails with [MissingField] if the
    snapshot lacks that contract or field. *)
Definition getContractValue (snap : Snapshot) (contractName fieldName : string)
  : Result Value :=
  match values snap !! (contractName, fieldName) with
  | Some v => Ok v
  | None => Err (MissingField contractName fieldName)
  end.

(** Modelled from the spec: [getEscrowDetails] is a method of
    [ProjectDiscovery] as well.  It is a pure validation of the parameters
    of the caller (address, timestamp, token set, description, upgrade
    metadata), which make up the [EscrowConfig]; it fails with
    [InvalidAddress] or [InvalidTimestamp] on malformed input.  What makes
    an address or a timestamp well formed is not said, so both tests are
    arguments. *)
Definition getEscrowDetails (validAddress validTimestamp : Value -> bool)
  (params : Obj) : Result Obj :=
  match Js.get "address" params with
  | Some a =>
      if validAddress a then
        match Js.get "sinceTimestamp" params with
        | Some t => if validTimestamp t then Ok params else Err InvalidTimestamp
        | None => Err InvalidTimestamp
        end
      else Err InvalidAddress
  | None => Err InvalidAddress
  end.

(** The wildcard of [EscrowConfig.tokens] and a list of token symbols. *)
Definition allTokens (v : Value) : bool :=
  match v with
  | VStr s => String.eqb s "*"
  | _ => false
  end.

Definition isSymbol (v : Value) : bool :=
  match v with
  | VStr s => negb (String.eqb s "")
  | _ => false
  end.

Definition tokenSymbols (v : Value) : option (list Value) :=
  match v with
  | VArr l => if forallb isSymbol l then Some l else None
  | _ => None
  end.

(** [EscrowConfig.tokens] is the wildcard or a non-empty set of symbols. *)
Definition tokensWellFormed (v : Value) : bool :=
  allTokens v ||
  match tokenSymbols v with
  | Some (_ :: _) => true
  | _ => false
  end.

End SpecModel.

(** An accessor over the snapshot [snap] that follows the spec in the two
    methods the spec describes; the remaining methods are those of [d]. *)
Definition specAccessor (snap : Snapshot) (validAddress validTimestamp : Value -> bool)
  (d : ProjectDiscovery) : ProjectDiscovery :=
  {| getContractValue := SpecModel.getContractValue snap;
     getEscrowDetails := SpecModel.getEscrowDetails validAddress validTimestamp;
     getMultisigPermission := getMultisigPermission d;
     getOpStackPermissions := getOpStackPermissions d;
     getOpStackContractDetails := getOpStackContractDetails d;
     getContractDetails := getContractDetails d |}.

(** ** The record type *)

Module Types.

(** The fields of [Layer2] that the record fills. *)
Record Layer2 : Type := {
  type : string;
  id : Value;
  display : Obj;
  config : Obj;
  riskView : Obj;
  stage : Stages.StageResult;
  stateDerivation : Value;
  technology : Obj;
  permissions : list Value;
  contracts : Obj;
  milestones : list Value;
  knowledgeNuggets : list Value }.

End Types.

Abbreviation Layer2 := Types.Layer2.

(** ** The module [zora.ts] *)

Module Zora.

Section Build.

Variable discovery : ProjectDiscovery.
Variable T : Tables.
Variable required : Stages.Policy.

(** The two top-level reads of the discovery. *)
Definition FINALIZATION_PERIOD_SECONDS : Result Value :=
  getContractValue discovery "L2OutputOracle" "FINALIZATION_PERIOD_SECONDS".

Definition upgradesProxy : Obj :=
  Js.object [ "upgradableBy" ::= VArr [VStr "ProxyAdmin"];
              "upgradeDelay" ::= VStr "No delay" ].

Definition challengePeriod : Result Value :=
  getContractValue discovery "L2OutputOracle" "FINALIZATION_PERIOD_SECONDS".

Definition upgradeDelay : Value := VNum 0.

(** The template string of [display.liveness.explanation]. *)
Definition explanation (finalizationPeriod : Value) : string :=
  "Zora is an Optimistic rollup that posts transaction data to the L1. For a transaction to be considered final, it has to be posted within a tx batch on L1 that links to a previous finalized batch. If the previous batch is missing, transaction finalization can be delayed up to "
  +:+ formatSeconds T (HARDCODED_OPTIMISM_SEQUENCING_WINDOW_SECONDS T)
  +:+ " or until it gets published. The state root gets finalized "
  +:+ formatSeconds T finalizationPeriod
  +:+ " after it has been posted.".

Definition display (finalizationPeriod : Value) : Obj :=
  Js.object [
    "name" ::= VStr "Zora";
    "slug" ::= VStr "zora";
    "warning" ::= VStr "Fraud proof system is currently under development. Users need to trust the block proposer to submit correct L1 state roots.";
    "description" ::= VStr "Zora is a fast, cost-efficient, and scalable Layer 2 built to help bring media onchain, powered by the OP Stack.";
    "purpose" ::= VStr "Universal, NFTs";
    "provider" ::= VStr "OP Stack";
    "category" ::= VStr "Optimistic Rollup";
    "dataAvailabilityMode" ::= VStr "TxData";
    "links" ::= {{ [
      "websites" ::= VArr [VStr "https://zora.energy/"; VStr "https://zora.co/"];
      "apps" ::= VArr [];
      "documentation" ::= VArr [VStr "https://docs.zora.co/docs/zora-network/intro"];
      "explorers" ::= VArr [VStr "https://explorer.zora.energy/";
                            VStr "https://zora.superscan.network"];
      "repositories" ::= VArr [VStr "https://github.com/ourzora/optimism"];
      "socialMedia" ::= VArr [VStr "https://twitter.com/ourZORA";
                              VStr "https://instagram.com/our.zora";
                              VStr "https://zora.community"] ] }};
    "activityDataSource" ::= VStr "Blockchain RPC";
    "liveness" ::= {{ [
      "warnings" ::= {{ [
        "stateUpdates" ::= OPTIMISTIC_ROLLUP_STATE_UPDATES_WARNING T ] }};
      "explanation" ::= VStr (explanation finalizationPeriod) ] }} ].

(** The arguments of the two calls of [getEscrowDetails]. *)
Definition escrowParams1 : Obj :=
  Js.object [
    "address" ::= EthereumAddress "0x1a0ad011913A150f69f6A19DF447A0CfD9551054";
    "sinceTimestamp" ::= UnixTime 1686607200;
    "tokens" ::= VArr [VStr "ETH"];
    "description" ::= VStr "Main entry point for users depositing ETH.";
    ... upgradesProxy ].

Definition escrowParams2 : Obj :=
  Js.object [
    "address" ::= EthereumAddress "0x3e2Ea9B92B7E48A52296fD261dc26fd995284631";
    "sinceTimestamp" ::= UnixTime 1686607200;
    "tokens" ::= VStr "*";
    "description" ::= VStr "Main entry point for users depositing ERC20 token that do not require custom gateway.";
    ... upgradesProxy ].

Definition config (escrows : list Obj) : Obj :=
  Js.object [
    "escrows" ::= VArr (map VObj escrows);
    "transactionApi" ::= {{ [
      "type" ::= VStr "rpc";
      "startBlock" ::= VNum 1;
      "url" ::= VStr "https://rpc.zora.co";
      "callsPerMinute" ::= VNum 1500;
      "assessCount" ::= subtractOne T ] }};
    "liveness" ::= {{ [
      "proofSubmissions" ::= VArr [];
      "batchSubmissions" ::= VArr [
        {{ [ "formula" ::= VStr "transfer";
             "from" ::= EthereumAddress "0x625726c858dBF78c0125436C943Bf4b4bE9d9033";
             "to" ::= EthereumAddress "0x6F54Ca6F6EdE96662024Ffd61BFd18f3f4e34DFf";
             "sinceTimestamp" ::= UnixTime 1686695915 ] }} ];
      "stateUpdates" ::= VArr [
        {{ [ "formula" ::= VStr "functionCall";
             "address" ::= EthereumAddress "0x9E6204F750cD866b299594e2aC9eA824E2e5f95c";
             "selector" ::= VStr "0x9aaab648";
             "functionSignature" ::= VStr "function proposeL2Output(bytes32 _outputRoot, uint256 _l2BlockNumber, bytes32 _l1Blockhash, uint256 _l1BlockNumber)";
             "sinceTimestamp" ::= UnixTime 1686694007 ] }} ] ] }} ].

(** One [sources] entry: a contract name and the URLs of its evidence. *)
Definition source (contract : string) (references : list string) : Value :=
  {{ [ "contract" ::= VStr contract;
       "references" ::= VArr (map VStr references) ] }}.

(** The [exitWindow] entry of the risk view. *)
Definition exitWindow (period : Value) : Value :=
  {{ [ ... RISK_VIEW_EXIT_WINDOW T upgradeDelay period;
       "sources" ::= VArr [
         source "OptimismPortal"
           ["https://etherscan.io/address/0x1a0ad011913A150f69f6A19DF447A0CfD9551054"] ] ] }}.

(** The argument of [makeBridgeCompatible]. *)
Definition riskViewEntries (period : Value) : Obj :=
  Js.object [
    "stateValidation" ::= VObj (RISK_VIEW_STATE_NONE T);
    "dataAvailability" ::= {{ [
      ... RISK_VIEW_DATA_ON_CHAIN T;
      "sources" ::= VArr [
        source "OptimismPortal"
          ["https://etherscan.io/address/0x43260ee547c3965bb2a0174763bb8FEcC650BA4A#code#F1#L434"] ] ] }};
    "exitWindow" ::= exitWindow period;
    "sequencerFailure" ::= {{ [
      ... RISK_VIEW_SEQUENCER_SELF_SEQUENCE T
            (HARDCODED_OPTIMISM_SEQUENCING_WINDOW_SECONDS T);
      "sources" ::= VArr [
        source "OptimismPortal"
          ["https://etherscan.io/address/0x43260ee547c3965bb2a0174763bb8FEcC650BA4A#code#F1#L434"] ] ] }};
    "proposerFailure" ::= {{ [
      ... RISK_VIEW_PROPOSER_CANNOT_WITHDRAW T;
      "sources" ::= VArr [
        source "L2OutputOracle"
          ["https://etherscan.io/address/0x9eedde6b4D3263b97209Ba860eDF3Fc6a8fB6a44#code#F1#L186"] ] ] }};
    "destinationToken" ::= VObj (RISK_VIEW_NATIVE_AND_CANONICAL T ());
    "validatedBy" ::= VObj (RISK_VIEW_VALIDATED_BY_ETHEREUM T) ].

Definition stageCriteria : Stages.Criteria :=
  {| Stages.stage0 :=
       {| Stages.callsItselfRollup := Some true;
          Stages.stateRootsPostedToL1 := Some true;
          Stages.dataAvailabilityOnL1 := Some true;
          Stages.rollupNodeSourceAvailable := Some true |};
     Stages.stage1 :=
       {| Stages.stateVerificationOnL1 := Some false;
          Stages.fraudProofSystemAtLeast5Outsiders := None;
          Stages.usersHave7DaysToExit := Some false;
          Stages.usersCanExitWithoutCooperation := Some false;
          Stages.securityCouncilProperlySetUp := None |};
     Stages.stage2 :=
       {| Stages.proofSystemOverriddenOnlyInCaseOfABug := None;
          Stages.fraudProofSystemIsPermissionless := None;
          Stages.delayWith30DExitWindow := Some false |} |}.

Definition stageContext : Stages.Context :=
  {| Stages.rollupNodeLink :=
       "https://github.com/ethereum-optimism/optimism/tree/develop/op-node" |}.

(** One [references] entry: a label and a URL. *)
Definition reference (text href : string) : Value :=
  {{ [ "text" ::= VStr text; "href" ::= VStr href ] }}.

Definition technology : Obj :=
  Js.object [
    "stateCorrectness" ::= {{ [
      "name" ::= VStr "Fraud proofs are in development";
      "description" ::= VStr "Ultimately, OP stack chains will use interactive fraud proofs to enforce state correctness. This feature is currently in development and the system permits invalid state roots.";
      "risks" ::= VArr [
        {{ [ "category" ::= VStr "Funds can be stolen if";
             "text" ::= VStr "an invalid state root is submitted to the system.";
             "isCritical" ::= VBool true ] }} ];
      "references" ::= VArr [
        reference "L2OutputOracle.sol#L141 - Etherscan source code, deleteL2Outputs function"
                  "https://etherscan.io/address/0x9eedde6b4D3263b97209Ba860eDF3Fc6a8fB6a44#code#F1#L141" ] ] }};
    "dataAvailability" ::= {{ [
      ... DATA_AVAILABILITY_ON_CHAIN_CANONICAL T;
      "references" ::= VArr [
        reference "Derivation: Batch submission - OP Stack specs"
                  "https://github.com/ourzora/optimism/blob/develop/specs/derivation.md#batch-submission";
        reference "BatchInbox - Etherscan address"
                  "https://etherscan.io/address/0x6f54ca6f6ede96662024ffd61bfd18f3f4e34dff";
        reference "OptimismPortal.sol#L434 - Etherscan source code, depositTransaction function"
                  "https://etherscan.io/address/0x43260ee547c3965bb2a0174763bb8fecc650ba4a#code#F1#L434" ] ] }};
    "operator" ::= {{ [
      ... OPERATOR_CENTRALIZED_OPERATOR T;
      "references" ::= VArr [
        reference "L2OutputOracle.sol#L30 - Etherscan source code, CHALLENGER address"
                  "https://etherscan.io/address/0x9eedde6b4D3263b97209Ba860eDF3Fc6a8fB6a44#code#F1#L30";
        reference "L2OutputOracle.sol#L35 - Etherscan source code, PROPOSER address"
                  "https://etherscan.io/address/0x9eedde6b4D3263b97209Ba860eDF3Fc6a8fB6a44#code#F1#L35";
        reference "Decentralizing the sequencer - OP Stack docs"
                  "https://community.optimism.io/docs/protocol/#decentralizing-the-sequencer" ] ] }};
    "forceTransactions" ::= {{ [
      ... FORCE_TRANSACTIONS_CANONICAL_ORDERING T;
      "references" ::= VArr [
        reference "Sequencing Window - OP Stack specs"
                  "https://github.com/ourzora/optimism/blob/51eeb76efeb32b3df3e978f311188aa29f5e3e94/specs/glossary.md#sequencing-window";
        reference "OptimismPortal.sol#L434 - Etherscan source code, depositTransaction function"
                  "https://etherscan.io/address/0x43260ee547c3965bb2a0174763bb8fecc650ba4a#code#F1#L434" ] ] }};
    "exitMechanisms" ::= VArr [
      {{ [ ... EXITS_REGULAR T "optimistic" "merkle proof";
           "references" ::= VArr [
             reference "OptimismPortal.sol#L242 - Etherscan source code, proveWithdrawalTransaction function"
                       "https://etherscan.io/address/0x43260ee547c3965bb2a0174763bb8fecc650ba4a#code#F1#L242";
             reference "OptimismPortal.sol#L325 - Etherscan source code, finalizeWithdrawalTransaction function"
                       "https://etherscan.io/address/0x43260ee547c3965bb2a0174763bb8fecc650ba4a#code#F1#L325";
             reference "L2OutputOracle.sol#L185 - Etherscan source code, PROPOSER check"
                       "https://etherscan.io/address/0x9eedde6b4D3263b97209Ba860eDF3Fc6a8fB6a44#code#F1#L185" ];
           "risks" ::= VArr [EXITS_RISK_CENTRALIZED_VALIDATOR T] ] }};
      {{ [ ... EXITS_FORCED T "all-withdrawals";
           "references" ::= VArr [
             reference "Forced withdrawal from an OP Stack blockchain"
                       "https://stack.optimism.io/docs/security/forced-withdrawal/" ] ] }} ];
    "smartContracts" ::= {{ [
      "name" ::= VStr "EVM compatible smart contracts are supported";
      "description" ::= VStr "OP stack chains are pursuing the EVM Equivalence model. No changes to smart contracts are required regardless of the language they are written in, i.e. anything deployed on L1 can be deployed on L2.";
      "risks" ::= VArr [];
      "references" ::= VArr [
        reference "Introducing EVM Equivalence"
                  "https://medium.com/ethereum-optimism/introducing-evm-equivalence-5c2021deb306" ] ] }} ].

Definition opStackRoles : Obj :=
  Js.object [ "batcherHash" ::= VStr "Sequencer";
              "PROPOSER" ::= VStr "Proposer";
              "GUARDIAN" ::= VStr "Guardian";
              "CHALLENGER" ::= VStr "Challenger" ].

Definition l1ERC721BridgeDetails : Obj :=
  Js.object [
    "description" ::= VStr "The L1ERC721Bridge contract is the main entry point to deposit ERC721 tokens from L1 to L2.";
    ... upgradesProxy ].

Definition contracts (addresses : list Value) : Obj :=
  Js.object [ "addresses" ::= VArr addresses;
              "risks" ::= VArr [CONTRACTS_UPGRADE_NO_DELAY_RISK T] ].

Definition milestones : list Value :=
  [ {{ [ "name" ::= VStr "Zora Network Launch";
         "link" ::= VStr "https://twitter.com/ourZORA/status/1671602234994622464";
         "date" ::= VStr "2023-06-21T00:00:00Z";
         "description" ::= VStr "Zora Network is live on mainnet." ] }} ].

Definition knowledgeNuggets : list Value :=
  [ {{ [ "title" ::= VStr "How Optimism compresses data";
         "url" ::= VStr "https://twitter.com/bkiepuszewski/status/1508740414492323840?s=20&t=vMgR4jW1ssap-A-MBsO4Jw";
         "thumbnail" ::= NUGGETS_THUMBNAILS_L2BEAT_03 T ] }};
    {{ [ "title" ::= VStr "Bedrock Explainer";
         "url" ::= VStr "https://community.optimism.io/docs/developers/bedrock/explainer/";
         "thumbnail" ::= NUGGETS_THUMBNAILS_OPTIMISM_04 T ] }};
    {{ [ "title" ::= VStr "Modular Rollup Theory";
         "url" ::= VStr "https://www.youtube.com/watch?v=jnVjhp41pcc";
         "thumbnail" ::= NUGGETS_THUMBNAILS_MODULAR_ROLLUP T ] }} ].

(** The record, given the values of the two constants and the results of
    the accessor calls. *)
Definition record (finalizationPeriod period : Value)
  (escrows : list Obj) (perms : list Value) (addresses : list Value) : Layer2 :=
  {| Types.type := "layer2";
     Types.id := ProjectId "zora";
     Types.display := display finalizationPeriod;
     Types.config := config escrows;
     Types.riskView := makeBridgeCompatible T (riskViewEntries period);
     Types.stage := Stages.getStage required stageCriteria stageContext;
     Types.stateDerivation := DERIVATION_OPSTACK T "ZORA";
     Types.technology := technology;
     Types.permissions := perms;
     Types.contracts := contracts addresses;
     Types.milestones := milestones;
     Types.knowledgeNuggets := knowledgeNuggets |}.

(** The module, top to bottom: the two top-level reads of the discovery,
    then the accessor calls in the order of the object literal. *)
Definition zora : Result Layer2 :=
  let* finalizationPeriod := FINALIZATION_PERIOD_SECONDS in
  let* period := challengePeriod in
  let* escrow1 := getEscrowDetails discovery escrowParams1 in
  let* escrow2 := getEscrowDetails discovery escrowParams2 in
  let* perms1 :=
    getMultisigPermission discovery "ZoraMultisig"
      "This address is the owner of the following contracts: ProxyAdmin, SystemConfig. It is also designated as a Guardian of the OptimismPortal, meaning it can halt withdrawals. It can upgrade the bridge implementation potentially gaining access to all funds, and change the sequencer, state root proposer or any other system component (unlimited upgrade power)." in
  let* perms2 :=
    getMultisigPermission discovery "ChallengerMultisig"
      "This address is the permissioned challenger of the system. It can delete non finalized roots without going through the fault proof process." in
  let* perms3 := getOpStackPermissions discovery opStackRoles in
  let* opStack := getOpStackContractDetails discovery upgradesProxy in
  let* bridge :=
    getContractDetails discovery "L1ERC721Bridge" l1ERC721BridgeDetails in
  Ok (record finalizationPeriod period
        [escrow1; escrow2]
        (perms1 ++ perms2 ++ perms3)
        (opStack ++ [bridge])).

End Build.

End Zora.

(** ** Reading the record *)

Module Observe.

(** The risk dimensions a record must populate. *)
Definition riskDimensions : list string :=
  [ "stateValidation"; "dataAvailability"; "exitWindow"; "sequencerFailure";
    "proposerFailure"; "destinationToken"; "validatedBy" ].

(** The entries of the table [RISK_VIEW] that the record can name. *)
Inductive RiskViewEntry (T : Tables) : Obj -> Prop :=
| entry_STATE_NONE : RiskViewEntry T (RISK_VIEW_STATE_NONE T)
| entry_DATA_ON_CHAIN : RiskViewEntry T (RISK_VIEW_DATA_ON_CHAIN T)
| entry_EXIT_WINDOW delay period :
    RiskViewEntry T (RISK_VIEW_EXIT_WINDOW T delay period)
| entry_SEQUENCER_SELF_SEQUENCE window :
    RiskViewEntry T (RISK_VIEW_SEQUENCER_SELF_SEQUENCE T window)
| entry_PROPOSER_CANNOT_WITHDRAW :
    RiskViewEntry T (RISK_VIEW_PROPOSER_CANNOT_WITHDRAW T)
| entry_NATIVE_AND_CANONICAL :
    RiskViewEntry T (RISK_VIEW_NATIVE_AND_CANONICAL T ())
| entry_VALIDATED_BY_ETHEREUM :
    RiskViewEntry T (RISK_VIEW_VALIDATED_BY_ETHEREUM T).

(** A risk entry is a table entry, as it is or with [sources] attached. *)
Definition DrawnFrom (base : Obj) (entry : Value) : Prop :=
  entry = VObj base \/
  exists srcs, entry = {{ [ ... base; "sources" ::= VArr srcs ] }}.

Definition nonEmpty (v : option Value) : bool :=
  match v with
  | Some (VStr s) => negb (String.eqb s "")
  | _ => false
  end.

(** The [references] list of a technology section. *)
Definition references (section : Value) : list Value :=
  match section with
  | VObj o =>
      match Js.get "references" o with
      | Some (VArr l) => l
      | _ => []
      end
  | _ => []
  end.

(** The sections of [technology]: the value of every property, and every
    element where the value is an array ([exitMechanisms]). *)
Definition sections (tech : Obj) : list Value :=
  flat_map (fun kv => match snd kv with
                      | VArr l => l
                      | v => [v]
                      end) tech.

Definition technologyReferences (tech : Obj) : list Value :=
  flat_map references (sections tech).

(** A reference has a non-empty label [text] and a non-empty URL [href]. *)
Definition referenceWellFormed (v : Value) : bool :=
  match v with
  | VObj o => nonEmpty (Js.get "text" o) && nonEmpty (Js.get "href" o)
  | _ => false
  end.

(** The [sources] list of a risk entry. *)
Definition sources (entry : Value) : list Value :=
  match entry with
  | VObj o =>
      match Js.get "sources" o with
      | Some (VArr l) => l
      | _ => []
      end
  | _ => []
  end.

(** A source has a non-empty label [contract] and a list of non-empty
    URLs. *)
Definition sourceWellFormed (v : Value) : bool :=
  match v with
  | VObj o =>
      nonEmpty (Js.get "contract" o) &&
      match Js.get "references" o with
      | Some (VArr urls) => forallb (fun u => nonEmpty (Some u)) urls
      | _ => false
      end
  | _ => false
  end.

(** The risk dimensions to which the record attaches [sources]. *)
Definition sourcedDimensions : list string :=
  [ "dataAvailability"; "exitWindow"; "sequencerFailure"; "proposerFailure" ].

(** The escrows of a record and the text of [display.liveness.explanation]. *)
Definition escrows (r : Layer2) : option (list Value) :=
  match Js.get "escrows" (Types.config r) with
  | Some (VArr l) => Some l
  | _ => None
  end.

Definition livenessExplanation (r : Layer2) : option Value :=
  match Js.get "liveness" (Types.display r) with
  | Some (VObj l) => Js.get "explanation" l
  | _ => None
  end.

End Observe.

(** ** A concrete catalogue *)

(** Small tables, a snapshot and an accessor on which the record is built
    in full. *)
Module Sample.

Definition label (s : string) : Obj := Js.object [ "value" ::= VStr s ].

Definition tables : Tables :=
  {| HARDCODED_OPTIMISM_SEQUENCING_WINDOW_SECONDS := VNum 43200;
     formatSeconds := fun v => match v with
                               | VNum 604800 => "7d"
                               | VNum 43200 => "12h"
                               | _ => "?"
                               end;
     OPTIMISTIC_ROLLUP_STATE_UPDATES_WARNING := VStr "state updates";
     subtractOne := VNull;
     makeBridgeCompatible := fun entry =>
       Js.object [ ... entry;
                   "sourceUpgradeability" ::=
                     match Js.get "exitWindow" entry with
                     | Some v => v
                     | None => VNull
                     end ];
     RISK_VIEW_STATE_NONE := label "None";
     RISK_VIEW_DATA_ON_CHAIN := label "On chain";
     RISK_VIEW_EXIT_WINDOW := fun delay period =>
       Js.object [ "value" ::= VStr "None";
                   "upgradeDelay" ::= delay;
                   "challengePeriod" ::= period ];
     RISK_VIEW_SEQUENCER_SELF_SEQUENCE := fun window =>
       Js.object [ "value" ::= VStr "Self sequence"; "delay" ::= window ];
     RISK_VIEW_PROPOSER_CANNOT_WITHDRAW := label "Cannot withdraw";
     RISK_VIEW_NATIVE_AND_CANONICAL := fun _ => label "Native & Canonical";
     RISK_VIEW_VALIDATED_BY_ETHEREUM := label "Ethereum";
     DERIVATION_OPSTACK := fun name => VStr name;
     DATA_AVAILABILITY_ON_CHAIN_CANONICAL :=
       Js.object [ "name" ::= VStr "All data required for proofs is published on chain";
                   "references" ::= VArr [] ];
     OPERATOR_CENTRALIZED_OPERATOR := label "The system has a centralized operator";
     FORCE_TRANSACTIONS_CANONICAL_ORDERING := label "Users can force any transaction";
     EXITS_REGULAR := fun kind proof =>
       Js.object [ "name" ::= VStr "Regular exit"; "kind" ::= VStr kind;
                   "proof" ::= VStr proof ];
     EXITS_FORCED := fun kind =>
       Js.object [ "name" ::= VStr "Forced exit"; "kind" ::= VStr kind ];
     EXITS_RISK_CENTRALIZED_VALIDATOR := VObj (label "centralized validator");
     CONTRACTS_UPGRADE_NO_DELAY_RISK := VObj (label "no delay");
     NUGGETS_THUMBNAILS_L2BEAT_03 := VStr "l2beat-03.jpg";
     NUGGETS_THUMBNAILS_OPTIMISM_04 := VStr "optimism-04.jpg";
     NUGGETS_THUMBNAILS_MODULAR_ROLLUP := VStr "modular-rollup.jpg" |}.

Definition validAddress (v : Value) : bool :=
  match v with
  | VStr s => String.prefix "0x" s && Nat.eqb (String.length s) 42
  | _ => false
  end.

Definition validTimestamp (v : Value) : bool :=
  match v with
  | VNum t => 0 <=? t
  | _ => false
  end.

Definition snapshot : Snapshot :=
  {| values :=
       {[ ("L2OutputOracle", "FINALIZATION_PERIOD_SECONDS") := VNum 604800 ]};
     roles := ∅ |}.

Definition emptySnapshot : Snapshot := {| values := ∅; roles := ∅ |}.

(** An accessor whose permission and contract methods answer with the
    names they are given. *)
Definition named : ProjectDiscovery :=
  {| getContractValue := fun c f => Err (MissingField c f);
     getEscrowDetails := fun params => Ok params;
     getMultisigPermission := fun name description => Ok [ VStr name ];
     getOpStackPermissions := fun roleMap => Ok (map snd roleMap);
     getOpStackContractDetails := fun metadata => Ok [ VObj metadata ];
     getContractDetails := fun name metadata => Ok (VStr name) |}.

Definition discovery : ProjectDiscovery :=
  specAccessor snapshot validAddress validTimestamp named.

(** The table that requires no field for certainty, and the one that
    requires them all. *)
Definition lenient : Stages.Policy := fun _ => false.
Definition strict : Stages.Policy := fun _ => true.

(** The record that the module builds over this catalogue. *)
Definition built : Layer2 :=
  Zora.record tables lenient (VNum 604800) (VNum 604800)
    [ Zora.escrowParams1; Zora.escrowParams2 ]
    [ VStr "ZoraMultisig"; VStr "ChallengerMultisig"; VStr "Sequencer";
      VStr "Proposer"; VStr "Guardian"; VStr "Challenger" ]
    [ VObj Zora.upgradesProxy; VStr "L1ERC721Bridge" ].

End Sample.
(** ** The literals the module writes *)

Module Literals.

(** The strings of a value: the string itself, or the strings among the
    elements of an array. *)
Definition strings (v : Value) : list string :=
  match v with
  | VStr s => [s]
  | VArr l => flat_map (fun x => match x with
                                 | VStr s => [s]
                                 | _ => []
                                 end) l
  | _ => []
  end.

(** The string held by the property [k] of the object [v]. *)
Definition stringAt (k : string) (v : Value) : list string :=
  match v with
  | VObj o =>
      match Js.get k o with
      | Some (VStr s) => [s]
      | _ => []
      end
  | _ => []
  end.

Definition elements (v : option Value) : list Value :=
  match v with
  | Some (VArr l) => l
  | _ => []
  end.

Definition properties (v : option Value) : Obj :=
  match v with
  | Some (VObj o) => o
  | _ => []
  end.

(** The URLs of [display.links], whatever the kind of link. *)
Definition linkUrls (display : Obj) : list string :=
  flat_map (fun kv => strings (snd kv))
           (properties (Js.get "links" display)).

(** The URL of [config.transactionApi]. *)
Definition apiUrls (config : Obj) : list string :=
  match Js.get "transactionApi" config with
  | Some api => stringAt "url" api
  | None => []
  end.

(** The [href] of every reference of the technology sections. *)
Definition referenceUrls (tech : Obj) : list string :=
  flat_map (stringAt "href") (Observe.technologyReferences tech).

(** The URLs of the sources of the risk dimensions [dims]. *)
Definition sourceUrls (dims : list string) (entries : Obj) : list string :=
  flat_map (fun dim =>
              flat_map (fun src =>
                          match src with
                          | VObj o => flat_map strings
                                        (match Js.get "references" o with
                                         | Some v => [v]
                                         | None => []
                                         end)
                          | _ => []
                          end)
                       (match Js.get dim entries with
                        | Some entry => Observe.sources entry
                        | None => []
                        end))
           dims.

Definition isHttps (s : string) : bool := String.prefix "https://" s.

Definition isHexDigit (c : Ascii.ascii) : bool :=
  let n := Ascii.nat_of_ascii c in
  (Nat.leb 48 n && Nat.leb n 57) ||
  (Nat.leb 65 n && Nat.leb n 70) ||
  (Nat.leb 97 n && Nat.leb n 102).

(** An address literal: [0x] and forty hexadecimal digits. *)
Definition isAddress (s : string) : bool :=
  String.prefix "0x" s &&
  Nat.eqb (String.length s) 42 &&
  forallb isHexDigit (list_ascii_of_string (String.substring 2 40 s)).

(** The addresses of [config.liveness]: the sender and the receiver of
    the batch submissions and the contract of the state updates. *)
Definition livenessAddresses (config : Obj) : list string :=
  let liveness := properties (Js.get "liveness" config) in
  flat_map (fun b => (stringAt "from" b ++ stringAt "to" b)%list)
           (elements (Js.get "batchSubmissions" liveness)) ++
  flat_map (stringAt "address") (elements (Js.get "stateUpdates" liveness)).

End Literals.

(** ** Object lemmas *)

Section ObjectLemmas.

Lemma get_set_eq k v o : Js.get k (Js.set k v o) = Some v.
Proof.
  induction o as [|[k' v'] rest IH]; simpl.
  - by rewrite String.eqb_refl.
  - destruct (String.eqb k k') eqn:E; simpl; rewrite ?String.eqb_refl, ?E; done.
Qed.

Lemma get_set_ne k k' v o : k <> k' -> Js.get k' (Js.set k v o) = Js.get k' o.
Proof.
  intros Hne. induction o as [|[k1 v1] rest IH]; simpl.
  - destruct (String.eqb_spec k' k); congruence.
  - destruct (String.eqb_spec k k1) as [->|Hk]; simpl.
    + destruct (String.eqb_spec k' k1); congruence.
    + destruct (String.eqb_spec k' k1); congruence.
Qed.

Lemma get_set k k' v o :
  Js.get k' (Js.set k v o) = if String.eqb k' k then Some v else Js.get k' o.
Proof.
  destruct (String.eqb_spec k' k) as [->|Hne].
  - apply get_set_eq.
  - apply get_set_ne. congruence.
Qed.

(** Later members win: a property of the spread source hides the one the
    object had, the others are kept. *)
Lemma get_spread k o src :
  Js.get k (Js.spread o src) =
    match Js.get k (rev src) with
    | Some v => Some v
    | None => Js.get k o
    end.
Proof.
  unfold Js.spread. revert o.
  induction src as [|[k1 v1] rest IH] using rev_ind; intros o; simpl; [done|].
  rewrite fold_left_app, rev_app_distr. simpl.
  rewrite get_set. destruct (String.eqb k k1); [done|]. apply IH.
Qed.

Lemma get_spread_None k o src :
  Js.get k src = None -> Js.get k (Js.spread o src) = Js.get k o.
Proof.
  intros Hn. rewrite get_spread.
  assert (Js.get k (rev src) = None) as ->; [|done].
  induction src as [|[k1 v1] rest IH]; simpl in *; [done|].
  destruct (String.eqb k k1) eqn:E; [done|].
  assert (forall a b, Js.get k a = None -> Js.get k b = None ->
                      Js.get k (a ++ b) = None) as Happ.
  { clear. induction a as [|[k2 v2] a IH]; simpl; [done|].
    intros b. destruct (String.eqb k k2); [done|]. apply IH. }
  apply Happ; [by apply IH|]. simpl. by rewrite E.
Qed.

End ObjectLemmas.

(** ** The construction, step by step *)

Section BuildLemmas.

Variable discovery : ProjectDiscovery.
Variable T : Tables.
Variable required : Stages.Policy.

(** A built record comes from successful calls, in the order of the
    module. *)
Lemma zora_Ok_inv r :
  Zora.zora discovery T required = Ok r ->
  exists v e1 e2 perms addresses,
    Zora.FINALIZATION_PERIOD_SECONDS discovery = Ok v /\
    Zora.challengePeriod discovery = Ok v /\
    getEscrowDetails discovery Zora.escrowParams1 = Ok e1 /\
    getEscrowDetails discovery Zora.escrowParams2 = Ok e2 /\
    r = Zora.record T required v v [e1; e2] perms addresses.
Proof.
  unfold Zora.zora, Zora.challengePeriod, Zora.FINALIZATION_PERIOD_SECONDS.
  destruct (getContractValue discovery _ _) as [v|]; simpl; [|done].
  destruct (getEscrowDetails discovery Zora.escrowParams1) as [e1|]; simpl; [|done].
  destruct (getEscrowDetails discovery Zora.escrowParams2) as [e2|]; simpl; [|done].
  destruct (getMultisigPermission discovery "ZoraMultisig" _) as [p1|];
    simpl; [|done].
  destruct (getMultisigPermission discovery "ChallengerMultisig" _) as [p2|];
    simpl; [|done].
  destruct (getOpStackPermissions discovery _) as [p3|]; simpl; [|done].
  destruct (getOpStackContractDetails discovery _) as [o|]; simpl; [|done].
  destruct (getContractDetails discovery _ _) as [b|]; simpl; [|done].
  intros [= <-]. by eexists v, e1, e2, _, _.
Qed.

(** The first failing call decides the error: without the finalization
    period nothing else is tried. *)
Lemma zora_Err_first e :
  Zora.FINALIZATION_PERIOD_SECONDS discovery = Err e ->
  Zora.zora discovery T required = Err e.
Proof. unfold Zora.zora. by intros ->. Qed.

End BuildLemmas.

(** ** The claims about the record *)

(** Lookups in object literals: properties are set in order, and a lookup
    after a [set] is decided by comparing the names. *)
Ltac js_eval := cbn; rewrite ?get_set; cbn.

Section RecordLemmas.

Variable T : Tables.

Lemma riskViewEntries_keys period :
  Js.keys (Zora.riskViewEntries T period) = Observe.riskDimensions.
Proof. reflexivity. Qed.

Lemma riskViewEntries_exitWindow period :
  Js.get "exitWindow" (Zora.riskViewEntries T period)
    = Some (Zora.exitWindow T period).
Proof. reflexivity. Qed.

Lemma riskViewEntries_drawn period dim :
  In dim Observe.riskDimensions ->
  exists entry base,
    Js.get dim (Zora.riskViewEntries T period) = Some entry /\
    Observe.RiskViewEntry T base /\
    Observe.DrawnFrom base entry.
Proof.
  unfold Observe.riskDimensions, Observe.DrawnFrom. simpl.
  intros [<-|[<-|[<-|[<-|[<-|[<-|[<-|[]]]]]]]].
  - exists (VObj (RISK_VIEW_STATE_NONE T)), (RISK_VIEW_STATE_NONE T).
    repeat split; [constructor|by left].
  - eexists _, (RISK_VIEW_DATA_ON_CHAIN T).
    repeat split; [constructor|right; by eexists].
  - eexists _, (RISK_VIEW_EXIT_WINDOW T Zora.upgradeDelay period).
    repeat split; [constructor|right; by eexists].
  - eexists _, (RISK_VIEW_SEQUENCER_SELF_SEQUENCE T
                  (HARDCODED_OPTIMISM_SEQUENCING_WINDOW_SECONDS T)).
    repeat split; [constructor|right; by eexists].
  - eexists _, (RISK_VIEW_PROPOSER_CANNOT_WITHDRAW T).
    repeat split; [constructor|right; by eexists].
  - exists (VObj (RISK_VIEW_NATIVE_AND_CANONICAL T ())),
      (RISK_VIEW_NATIVE_AND_CANONICAL T ()).
    repeat split; [constructor|by left].
  - exists (VObj (RISK_VIEW_VALIDATED_BY_ETHEREUM T)),
      (RISK_VIEW_VALIDATED_BY_ETHEREUM T).
    repeat split; [constructor|by left].
Qed.

Lemma riskViewEntries_sources period dim :
  In dim Observe.sourcedDimensions ->
  exists entry,
    Js.get dim (Zora.riskViewEntries T period) = Some entry /\
    Observe.sources entry <> [] /\
    Forall (fun s => Observe.sourceWellFormed s = true) (Observe.sources entry).
Proof.
  unfold Observe.sourcedDimensions. simpl.
  intros [<-|[<-|[<-|[<-|[]]]]];
    (eexists; split; [reflexivity|]); js_eval;
    (split; [done|repeat constructor]).
Qed.

Lemma technology_references :
  Forall (fun v => Observe.referenceWellFormed v = true)
         (Observe.technologyReferences (Zora.technology T)) /\
  length (Observe.technologyReferences (Zora.technology T)) = 14%nat.
Proof.
  unfold Observe.technologyReferences, Observe.sections. js_eval.
  split; [repeat constructor|reflexivity].
Qed.

End RecordLemmas.

Section SampleLemmas.

Lemma sample_built :
  Zora.zora Sample.discovery Sample.tables Sample.lenient = Ok Sample.built.
Proof. vm_compute. reflexivity. Qed.

End SampleLemmas.

(** C2: with the finalization period 604800 in the discovery (and the
    upgrade delay 0 of the module), the [exitWindow] entry of the built
    record is [RISK_VIEW.EXIT_WINDOW] applied to the pair (0, 604800),
    with the listed sources attached: this is the entry handed to
    [makeBridgeCompatible], and the entry of the risk view whenever
    [makeBridgeCompatible] keeps the dimension. *)
Theorem exitWindow_from_pair :
  forall discovery T required r,
    getContractValue discovery "L2OutputOracle" "FINALIZATION_PERIOD_SECONDS"
      = Ok (VNum 604800) ->
    Zora.zora discovery T required = Ok r ->
    let entries := Zora.riskViewEntries T (VNum 604800) in
    let entry :=
      {{ [ ... RISK_VIEW_EXIT_WINDOW T (VNum 0) (VNum 604800);
           "sources" ::= VArr [
             {{ [ "contract" ::= VStr "OptimismPortal";
                  "references" ::= VArr [
                    VStr "https://etherscan.io/address/0x1a0ad011913A150f69f6A19DF447A0CfD9551054" ] ] }} ] ] }} in
    Zora.upgradeDelay = VNum 0 /\
    Types.riskView r = makeBridgeCompatible T entries /\
    Js.get "exitWindow" entries = Some entry /\
    (Js.get "exitWindow" (makeBridgeCompatible T entries)
       = Js.get "exitWindow" entries ->
     Js.get "exitWindow" (Types.riskView r) = Some entry).
Proof.
  intros discovery T required r Hv Hr entries entry.
  apply zora_Ok_inv in Hr as (v & e1 & e2 & perms & addresses & Hf & _ & _ & _ & ->).
  unfold Zora.FINALIZATION_PERIOD_SECONDS in Hf. rewrite Hv in Hf.
  injection Hf as <-.
  split; [reflexivity|]. split; [reflexivity|]. split; [reflexivity|].
  intros Hkeep.
  transitivity (Js.get "exitWindow" entries); [exact Hkeep|reflexivity].
Qed.

(** The sample catalogue, whose snapshot holds 604800. *)
Lemma exitWindow_from_pair_witness :
  Zora.zora Sample.discovery Sample.tables Sample.lenient = Ok Sample.built /\
  Js.get "exitWindow" (Types.riskView Sample.built)
      = Some (VObj [ ("value", VStr "None");
                     ("upgradeDelay", VNum 0);
                     ("challengePeriod", VNum 604800);
                     ("sources",
                      VArr [ VObj [ ("contract", VStr "OptimismPortal");
                                    ("references",
                                     VArr [ VStr "https://etherscan.io/address/0x1a0ad011913A150f69f6A19DF447A0CfD9551054" ]) ] ]) ]).
Proof.
  split; [exact sample_built|].
  destruct (exitWindow_from_pair Sample.discovery Sample.tables Sample.lenient
              Sample.built eq_refl sample_built) as (_ & _ & _ & H).
  rewrite H; reflexivity.
Defined.

(** C3: when the snapshot lacks the field [FINALIZATION_PERIOD_SECONDS]
    of the contract [L2OutputOracle], the construction of the record fails
    with [MissingField]; no record is built, with a zero or any other
    value in the place of the field. *)
Theorem missing_field_fails :
  forall snap discovery T required,
    getContractValue discovery = SpecModel.getContractValue snap ->
    values snap !! ("L2OutputOracle", "FINALIZATION_PERIOD_SECONDS") = None ->
    Zora.zora discovery T required
      = Err (MissingField "L2OutputOracle" "FINALIZATION_PERIOD_SECONDS") /\
    forall r, Zora.zora discovery T required <> Ok r.
Proof.
  intros snap discovery T required Hd Hs.
  assert (Zora.zora discovery T required
          = Err (MissingField "L2OutputOracle" "FINALIZATION_PERIOD_SECONDS"))
    as ->.
  { apply zora_Err_first. unfold Zora.FINALIZATION_PERIOD_SECONDS.
    rewrite Hd. unfold SpecModel.getContractValue. by rewrite Hs. }
  split; [reflexivity|]. intros r. discriminate.
Qed.

(** The empty snapshot. *)
Lemma missing_field_fails_witness :
  Zora.zora
    (specAccessor Sample.emptySnapshot Sample.validAddress Sample.validTimestamp
       Sample.named)
    Sample.tables Sample.lenient
    = Err (MissingField "L2OutputOracle" "FINALIZATION_PERIOD_SECONDS").
Proof.
  apply (missing_field_fails Sample.emptySnapshot
           (specAccessor Sample.emptySnapshot Sample.validAddress
              Sample.validTimestamp Sample.named)
           Sample.tables Sample.lenient eq_refl eq_refl).
Defined.

(** C4: the risk view of the built record is made of the seven required
    dimensions, each with an entry drawn from the table [RISK_VIEW] (as
    it is, or with sources attached); no dimension is omitted from the
    entries handed to [makeBridgeCompatible], nor from the risk view
    whenever [makeBridgeCompatible] keeps the dimensions. *)
Theorem riskView_all_dimensions :
  forall discovery T required r,
    Zora.zora discovery T required = Ok r ->
    exists period,
      let entries := Zora.riskViewEntries T period in
      Types.riskView r = makeBridgeCompatible T entries /\
      Js.keys entries = Observe.riskDimensions /\
      (forall dim, In dim Observe.riskDimensions ->
         exists entry base,
           Js.get dim entries = Some entry /\
           Observe.RiskViewEntry T base /\
           Observe.DrawnFrom base entry) /\
      ((forall dim, In dim Observe.riskDimensions ->
          Js.get dim (makeBridgeCompatible T entries) = Js.get dim entries) ->
       forall dim, In dim Observe.riskDimensions ->
         exists entry base,
           Js.get dim (Types.riskView r) = Some entry /\
           Observe.RiskViewEntry T base /\
           Observe.DrawnFrom base entry).
Proof.
  intros discovery T required r Hr.
  apply zora_Ok_inv in Hr as (v & e1 & e2 & perms & addresses & _ & _ & _ & _ & ->).
  exists v. intros entries.
  split; [reflexivity|]. split; [reflexivity|]. split.
  - apply riskViewEntries_drawn.
  - intros Hkeep dim Hdim.
    destruct (riskViewEntries_drawn T v dim Hdim) as (entry & base & Hg & Hb & Hd).
    exists entry, base. split; [|done].
    transitivity (Js.get dim entries); [exact (Hkeep dim Hdim)|exact Hg].
Qed.

(** The sample catalogue: all seven dimensions are in the risk view. *)
Lemma riskView_all_dimensions_witness :
  Zora.zora Sample.discovery Sample.tables Sample.lenient = Ok Sample.built /\
  forall dim, In dim Observe.riskDimensions ->
      exists entry base,
        Js.get dim (Types.riskView Sample.built) = Some entry /\
        Observe.RiskViewEntry Sample.tables base /\
        Observe.DrawnFrom base entry.
Proof.
  split; [exact sample_built|].
  destruct (riskView_all_dimensions Sample.discovery Sample.tables
              Sample.lenient Sample.built sample_built) as (period & Hrv & _ & _ & H).
  apply H. intros dim Hdim. simpl in Hdim.
  repeat (destruct Hdim as [<-|Hdim]; [reflexivity|]). destruct Hdim.
Defined.

(** C5: [getEscrowDetails] called with the wildcard as [tokens] gives an
    [EscrowConfig] whose tokens are the wildcard, which stands for all
    tokens and is not an empty set of symbols; and in the built record the
    tokens of every escrow are the wildcard or a non-empty set of token
    symbols. *)
Theorem escrow_tokens_wildcard :
  (forall validAddress validTimestamp params escrow,
      Js.get "tokens" params = Some (VStr "*") ->
      SpecModel.getEscrowDetails validAddress validTimestamp params = Ok escrow ->
      Js.get "tokens" escrow = Some (VStr "*") /\
      SpecModel.allTokens (VStr "*") = true /\
      SpecModel.tokenSymbols (VStr "*") = None /\
      VStr "*" <> VArr []) /\
  (forall snap validAddress validTimestamp d T required r,
      Zora.zora (specAccessor snap validAddress validTimestamp d) T required
        = Ok r ->
      exists e1 e2,
        Observe.escrows r = Some [VObj e1; VObj e2] /\
        Js.get "tokens" e1 = Some (VArr [VStr "ETH"]) /\
        Js.get "tokens" e2 = Some (VStr "*") /\
        Forall (fun e =>
                  exists tokens,
                    Js.get "tokens" e = Some tokens /\
                    SpecModel.tokensWellFormed tokens = true) [e1; e2]).
Proof.
  assert (forall va vt params escrow,
             SpecModel.getEscrowDetails va vt params = Ok escrow ->
             escrow = params) as Hsame.
  { intros va vt params escrow. unfold SpecModel.getEscrowDetails.
    destruct (Js.get "address" params) as [a|]; [|done].
    destruct (va a); [|done].
    destruct (Js.get "sinceTimestamp" params) as [t|]; [|done].
    destruct (vt t); [|done]. by intros [= <-]. }
  split.
  - intros va vt params escrow Ht He. apply Hsame in He as ->.
    repeat split; done.
  - intros snap va vt d T required r Hr.
    apply zora_Ok_inv in Hr as (v & e1 & e2 & perms & addresses & _ & _ & H1 & H2 & ->).
    simpl in H1, H2. apply Hsame in H1 as ->. apply Hsame in H2 as ->.
    exists Zora.escrowParams1, Zora.escrowParams2.
    split; [reflexivity|]. split; [reflexivity|]. split; [reflexivity|].
    repeat constructor; eexists; (split; [reflexivity|reflexivity]).
Qed.

(** The second escrow of the sample record. *)
Lemma escrow_tokens_wildcard_witness :
  SpecModel.getEscrowDetails Sample.validAddress Sample.validTimestamp
    Zora.escrowParams2 = Ok Zora.escrowParams2 /\
  Js.get "tokens" Zora.escrowParams2 = Some (VStr "*") /\
  Observe.escrows Sample.built
    = Some [VObj Zora.escrowParams1; VObj Zora.escrowParams2].
Proof.
  split; [reflexivity|].
  destruct escrow_tokens_wildcard as [Hcall Hrec].
  destruct (Hcall Sample.validAddress Sample.validTimestamp Zora.escrowParams2
              Zora.escrowParams2 eq_refl eq_refl) as (Ht & _).
  split; [exact Ht|].
  destruct (Hrec Sample.snapshot Sample.validAddress Sample.validTimestamp
              Sample.named Sample.tables Sample.lenient Sample.built
              sample_built) as (e1 & e2 & _).
  reflexivity.
Defined.

(** C8: in the spread merge later members win.  For both escrows the
    explicit parameters followed by the spread of [upgradesProxy] give an
    object whose [upgradableBy] is ['ProxyAdmin'] and whose [upgradeDelay]
    is 'No delay', with the explicit [address], [sinceTimestamp], [tokens]
    and [description] unchanged; the escrows of the built record are what
    [getEscrowDetails] answers for these objects, which under the model of
    the accessor are the objects themselves. *)
Theorem escrow_spread_later_wins :
  (forall o src k,
      Js.get k (Js.spread o src) =
        match Js.get k (rev src) with
        | Some v => Some v
        | None => Js.get k o
        end) /\
  (forall explicit,
      Js.get "upgradableBy" (Js.spread explicit Zora.upgradesProxy)
        = Some (VArr [VStr "ProxyAdmin"]) /\
      Js.get "upgradeDelay" (Js.spread explicit Zora.upgradesProxy)
        = Some (VStr "No delay") /\
      forall k, k <> "upgradableBy" -> k <> "upgradeDelay" ->
                Js.get k (Js.spread explicit Zora.upgradesProxy)
                  = Js.get k explicit) /\
  (let explicit1 :=
     Js.object [
       "address" ::= VStr "0x1a0ad011913A150f69f6A19DF447A0CfD9551054";
       "sinceTimestamp" ::= VNum 1686607200;
       "tokens" ::= VArr [VStr "ETH"];
       "description" ::= VStr "Main entry point for users depositing ETH." ] in
   let explicit2 :=
     Js.object [
       "address" ::= VStr "0x3e2Ea9B92B7E48A52296fD261dc26fd995284631";
       "sinceTimestamp" ::= VNum 1686607200;
       "tokens" ::= VStr "*";
       "description" ::= VStr "Main entry point for users depositing ERC20 token that do not require custom gateway." ] in
   Zora.escrowParams1 = Js.spread explicit1 Zora.upgradesProxy /\
   Zora.escrowParams2 = Js.spread explicit2 Zora.upgradesProxy /\
   (forall discovery T required r,
       Zora.zora discovery T required = Ok r ->
       exists e1 e2,
         getEscrowDetails discovery (Js.spread explicit1 Zora.upgradesProxy)
           = Ok e1 /\
         getEscrowDetails discovery (Js.spread explicit2 Zora.upgradesProxy)
           = Ok e2 /\
         Observe.escrows r = Some [VObj e1; VObj e2]) /\
   (forall snap validAddress validTimestamp d T required r,
       Zora.zora (specAccessor snap validAddress validTimestamp d) T required
         = Ok r ->
       Observe.escrows r
         = Some [ VObj (Js.spread explicit1 Zora.upgradesProxy);
                  VObj (Js.spread explicit2 Zora.upgradesProxy) ])).
Proof.
  split; [intros o src k; apply get_spread|]. split.
  - intros explicit. rewrite !get_spread. simpl. repeat split.
    intros k Hk1 Hk2. rewrite !get_set_ne by congruence. reflexivity.
  - intros explicit1 explicit2.
    split; [reflexivity|]. split; [reflexivity|]. split.
    { intros discovery T required r Hr.
      apply zora_Ok_inv in Hr
          as (v & e1 & e2 & perms & addresses & _ & _ & H1 & H2 & ->).
      by exists e1, e2. }
    intros snap va vt d T required r Hr.
    apply zora_Ok_inv in Hr as (v & e1 & e2 & perms & addresses & _ & _ & H1 & H2 & ->).
    simpl in H1, H2. unfold SpecModel.getEscrowDetails in H1, H2.
    simpl in H1, H2.
    destruct (va _); [|done]. destruct (vt _); [|done].
    destruct (va _); [|done].
    by injection H1 as <-; injection H2 as <-.
Qed.

(** The escrows of the sample record. *)
Lemma escrow_spread_later_wins_witness :
  Js.get "upgradableBy" Zora.escrowParams2 = Some (VArr [VStr "ProxyAdmin"]) /\
  Js.get "upgradeDelay" Zora.escrowParams2 = Some (VStr "No delay") /\
  Js.get "tokens" Zora.escrowParams2 = Some (VStr "*") /\
  Observe.escrows Sample.built
    = Some [VObj Zora.escrowParams1; VObj Zora.escrowParams2].
Proof.
  destruct escrow_spread_later_wins as (_ & Hlate & _ & Heq & _ & Hrec).
  rewrite Heq.
  destruct (Hlate
              (Js.object [
                 "address" ::= VStr "0x3e2Ea9B92B7E48A52296fD261dc26fd995284631";
                 "sinceTimestamp" ::= VNum 1686607200;
                 "tokens" ::= VStr "*";
                 "description" ::= VStr "Main entry point for users depositing ERC20 token that do not require custom gateway." ]))
    as (Hby & Hdelay & Hrest).
  split; [exact Hby|]. split; [exact Hdelay|].
  split; [rewrite Hrest by discriminate; reflexivity|].
  exact (Hrec Sample.snapshot Sample.validAddress Sample.validTimestamp
           Sample.named Sample.tables Sample.lenient Sample.built sample_built).
Defined.

(** C9: every reference of the built record has a non-empty URL and a
    non-empty label: the fourteen [text]/[href] pairs of the technology
    sections, and the sources that the record attaches to its risk
    entries, each with a contract name and non-empty URLs. *)
Theorem references_non_empty :
  forall discovery T required r,
    Zora.zora discovery T required = Ok r ->
    Forall (fun v => Observe.referenceWellFormed v = true)
           (Observe.technologyReferences (Types.technology r)) /\
    length (Observe.technologyReferences (Types.technology r)) = 14%nat /\
    exists entries,
      Types.riskView r = makeBridgeCompatible T entries /\
      forall dim, In dim Observe.sourcedDimensions ->
        exists entry,
          Js.get dim entries = Some entry /\
          Observe.sources entry <> [] /\
          Forall (fun s => Observe.sourceWellFormed s = true)
                 (Observe.sources entry).
Proof.
  intros discovery T required r Hr.
  apply zora_Ok_inv in Hr as (v & e1 & e2 & perms & addresses & _ & _ & _ & _ & ->).
  destruct (technology_references T) as [Hwf Hlen].
  split; [exact Hwf|]. split; [exact Hlen|].
  exists (Zora.riskViewEntries T v). split; [reflexivity|].
  apply riskViewEntries_sources.
Qed.

(** The references of the sample record. *)
Lemma references_non_empty_witness :
  Zora.zora Sample.discovery Sample.tables Sample.lenient = Ok Sample.built /\
  Forall (fun v => Observe.referenceWellFormed v = true)
         (Observe.technologyReferences (Types.technology Sample.built)).
Proof.
  split; [exact sample_built|].
  exact (proj1 (references_non_empty Sample.discovery Sample.tables
                  Sample.lenient Sample.built sample_built)).
Defined.

(** C10: the two top-level constants [FINALIZATION_PERIOD_SECONDS] and
    [challengePeriod] are equal, being the same read of the discovery; so
    in every built record the finalization period rendered into
    [display.liveness.explanation] and the challenge period given to the
    [exitWindow] entry are one value. *)
Theorem finalization_period_is_challenge_period :
  forall discovery T required,
    Zora.FINALIZATION_PERIOD_SECONDS discovery = Zora.challengePeriod discovery /\
    forall r,
      Zora.zora discovery T required = Ok r ->
      exists v,
        Zora.FINALIZATION_PERIOD_SECONDS discovery = Ok v /\
        Zora.challengePeriod discovery = Ok v /\
        Observe.livenessExplanation r = Some (VStr (Zora.explanation T v)) /\
        Zora.explanation T v =
          "Zora is an Optimistic rollup that posts transaction data to the L1. For a transaction to be considered final, it has to be posted within a tx batch on L1 that links to a previous finalized batch. If the previous batch is missing, transaction finalization can be delayed up to "
          +:+ formatSeconds T (HARDCODED_OPTIMISM_SEQUENCING_WINDOW_SECONDS T)
          +:+ " or until it gets published. The state root gets finalized "
          +:+ formatSeconds T v
          +:+ " after it has been posted." /\
        Types.riskView r = makeBridgeCompatible T (Zora.riskViewEntries T v) /\
        Js.get "exitWindow" (Zora.riskViewEntries T v) =
          Some {{ [ ... RISK_VIEW_EXIT_WINDOW T Zora.upgradeDelay v;
                    "sources" ::= VArr [
                      Zora.source "OptimismPortal"
                        ["https://etherscan.io/address/0x1a0ad011913A150f69f6A19DF447A0CfD9551054"] ] ] }}.
Proof.
  intros discovery T required. split; [reflexivity|].
  intros r Hr.
  apply zora_Ok_inv in Hr as (v & e1 & e2 & perms & addresses & Hf & Hc & _ & _ & ->).
  exists v. repeat split; done.
Qed.

(** The sample record: both uses see 604800. *)
Lemma finalization_period_is_challenge_period_witness :
  Zora.challengePeriod Sample.discovery = Ok (VNum 604800) /\
  Observe.livenessExplanation Sample.built
    = Some (VStr "Zora is an Optimistic rollup that posts transaction data to the L1. For a transaction to be considered final, it has to be posted within a tx batch on L1 that links to a previous finalized batch. If the previous batch is missing, transaction finalization can be delayed up to 12h or until it gets published. The state root gets finalized 7d after it has been posted.").
Proof.
  destruct (finalization_period_is_challenge_period Sample.discovery
              Sample.tables Sample.lenient) as [Heq Hrec].
  destruct (Hrec Sample.built sample_built) as (v & Hf & Hc & He & _).
  assert (v = VNum 604800) as ->.
  { assert (Ok v = Ok (VNum 604800)) as Hv by (rewrite <- Hf; reflexivity).
    by injection Hv. }
  split; [exact Hc|]. rewrite He. reflexivity.
Defined.

(** ** Property names of objects *)

Section KeyLemmas.

Lemma get_None_keys k o : Js.get k o = None <-> ~ In k (Js.keys o).
Proof.
  induction o as [|[k1 v1] rest IH]; simpl; [tauto|].
  destruct (String.eqb_spec k k1) as [->|Hne].
  - split; [done|]. intros H. exfalso. apply H. by left.
  - rewrite IH. split.
    + intros H [Heq|Hin]; [congruence|done].
    + intros H Hin. apply H. by right.
Qed.

Lemma get_app k a b :
  Js.get k (a ++ b) =
    match Js.get k a with
    | Some v => Some v
    | None => Js.get k b
    end.
Proof.
  induction a as [|[k1 v1] a IH]; simpl; [done|].
  by destruct (String.eqb k k1).
Qed.

(** In an object with distinct property names the order of the properties
    does not matter to a lookup. *)
Lemma get_rev_NoDup k o : NoDup (Js.keys o) -> Js.get k (rev o) = Js.get k o.
Proof.
  induction o as [|[k1 v1] rest IH]; simpl; [done|].
  intros Hnd. apply NoDup_cons in Hnd as [Hnotin Hnd].
  rewrite get_app, IH by done. simpl.
  destruct (String.eqb_spec k k1) as [->|Hne].
  - assert (Js.get k1 rest = None) as ->; [|done].
    apply get_None_keys. intros Hin. apply Hnotin.
    by apply list_elem_of_In.
  - by destruct (Js.get k rest).
Qed.

(** [{...base, f: v}] over a base with distinct names: the property [f]
    is [v], every other property is that of the base. *)
Lemma get_spread_then_set k f v base :
  NoDup (Js.keys base) ->
  Js.get k (Js.set f v (Js.spread [] base)) =
    if String.eqb k f then Some v else Js.get k base.
Proof.
  intros Hnd. rewrite get_set. destruct (String.eqb k f); [done|].
  rewrite get_spread, get_rev_NoDup by done.
  by destruct (Js.get k base).
Qed.

End KeyLemmas.

(** ** What the record takes from the discovery *)

(** X3: the discovery reaches the record only through the escrows, the
    permissions, the contract addresses and the finalization period.  Two
    records built over the same tables from any two accessors have the
    same type, id, stage, state derivation, technology, milestones and
    knowledge nuggets, the same transaction API and liveness
    configuration, and the same display and risk view as soon as the two
    accessors read the same finalization period. *)
Theorem zora_discovery_footprint :
  forall d1 d2 T required r1 r2,
    Zora.zora d1 T required = Ok r1 ->
    Zora.zora d2 T required = Ok r2 ->
    Types.type r1 = Types.type r2 /\
    Types.id r1 = Types.id r2 /\
    Types.stage r1 = Types.stage r2 /\
    Types.stateDerivation r1 = Types.stateDerivation r2 /\
    Types.technology r1 = Types.technology r2 /\
    Types.milestones r1 = Types.milestones r2 /\
    Types.knowledgeNuggets r1 = Types.knowledgeNuggets r2 /\
    Js.get "transactionApi" (Types.config r1)
      = Js.get "transactionApi" (Types.config r2) /\
    Js.get "liveness" (Types.config r1) = Js.get "liveness" (Types.config r2) /\
    Js.get "risks" (Types.contracts r1) = Js.get "risks" (Types.contracts r2) /\
    (Zora.FINALIZATION_PERIOD_SECONDS d1 = Zora.FINALIZATION_PERIOD_SECONDS d2 ->
     Types.display r1 = Types.display r2 /\
     Types.riskView r1 = Types.riskView r2).
Proof.
  intros d1 d2 T required r1 r2 H1 H2.
  apply zora_Ok_inv in H1 as (v1 & a1 & b1 & p1 & c1 & Hf1 & _ & _ & _ & ->).
  apply zora_Ok_inv in H2 as (v2 & a2 & b2 & p2 & c2 & Hf2 & _ & _ & _ & ->).
  repeat (split; [reflexivity|]).
  intros Heq. rewrite Hf1, Hf2 in Heq. injection Heq as ->. done.
Qed.

(** The sample accessor and one that answers the escrow calls with empty
    objects. *)
Lemma zora_discovery_footprint_witness :
  let other :=
    {| getContractValue := getContractValue Sample.discovery;
       getEscrowDetails := fun _ => Ok [];
       getMultisigPermission := fun _ _ => Ok [];
       getOpStackPermissions := fun _ => Ok [];
       getOpStackContractDetails := fun _ => Ok [];
       getContractDetails := fun _ _ => Ok VNull |} in
  exists r2,
    Zora.zora other Sample.tables Sample.lenient = Ok r2 /\
    Types.technology Sample.built = Types.technology r2 /\
    Types.riskView Sample.built = Types.riskView r2 /\
    Types.config Sample.built <> Types.config r2.
Proof.
  intros other.
  exists (Zora.record Sample.tables Sample.lenient (VNum 604800) (VNum 604800)
            [ []; [] ] [] [VNull]).
  assert (Zora.zora other Sample.tables Sample.lenient
          = Ok (Zora.record Sample.tables Sample.lenient (VNum 604800)
                  (VNum 604800) [ []; [] ] [] [VNull])) as Hother
      by reflexivity.
  split; [exact Hother|].
  destruct (zora_discovery_footprint Sample.discovery other Sample.tables
              Sample.lenient _ _ sample_built Hother)
    as (_ & _ & _ & _ & Htech & _ & _ & _ & _ & _ & Hsame).
  split; [exact Htech|].
  split; [exact (proj2 (Hsame eq_refl))|].
  discriminate.
Defined.

(** ** What the record takes from the tables *)

(** X4: a technology section built as a table entry followed by its own
    [references] keeps every other property of the entry, for table
    entries with distinct property names; the regular exit, which also
    sets [risks], keeps every property but these two. *)
Theorem technology_keeps_table_entries :
  forall T k,
    k <> "references" ->
    NoDup (Js.keys (DATA_AVAILABILITY_ON_CHAIN_CANONICAL T)) ->
    NoDup (Js.keys (OPERATOR_CENTRALIZED_OPERATOR T)) ->
    NoDup (Js.keys (FORCE_TRANSACTIONS_CANONICAL_ORDERING T)) ->
    NoDup (Js.keys (EXITS_REGULAR T "optimistic" "merkle proof")) ->
    NoDup (Js.keys (EXITS_FORCED T "all-withdrawals")) ->
    exists da op ft regular forced,
      Js.get "dataAvailability" (Zora.technology T) = Some (VObj da) /\
      Js.get "operator" (Zora.technology T) = Some (VObj op) /\
      Js.get "forceTransactions" (Zora.technology T) = Some (VObj ft) /\
      Js.get "exitMechanisms" (Zora.technology T)
        = Some (VArr [VObj regular; VObj forced]) /\
      Js.get k da = Js.get k (DATA_AVAILABILITY_ON_CHAIN_CANONICAL T) /\
      Js.get k op = Js.get k (OPERATOR_CENTRALIZED_OPERATOR T) /\
      Js.get k ft = Js.get k (FORCE_TRANSACTIONS_CANONICAL_ORDERING T) /\
      (k <> "risks" ->
       Js.get k regular = Js.get k (EXITS_REGULAR T "optimistic" "merkle proof")) /\
      Js.get "risks" regular = Some (VArr [EXITS_RISK_CENTRALIZED_VALIDATOR T]) /\
      Js.get k forced = Js.get k (EXITS_FORCED T "all-withdrawals").
Proof.
  intros T k Hk Hda Hop Hft Hreg Hforced.
  assert (String.eqb k "references" = false) as Ek
      by (by apply String.eqb_neq).
  eexists _, _, _, _, _.
  split; [reflexivity|]. split; [reflexivity|]. split; [reflexivity|].
  split; [reflexivity|].
  cbn [Js.object fold_left Js.define].
  rewrite !get_spread_then_set by done. rewrite Ek.
  repeat (split; [reflexivity|]).
  split; [|split].
  - intros Hr. rewrite get_set_ne by congruence.
    rewrite get_spread_then_set by done. by rewrite Ek.
  - by rewrite get_set_eq.
  - reflexivity.
Qed.

(** The sample tables: the data availability section has the name of the
    table entry, not its empty references. *)
Lemma technology_keeps_table_entries_witness :
  exists da,
    Js.get "dataAvailability" (Zora.technology Sample.tables) = Some (VObj da) /\
    Js.get "name" da
      = Some (VStr "All data required for proofs is published on chain") /\
    Js.get "references" (DATA_AVAILABILITY_ON_CHAIN_CANONICAL Sample.tables)
      = Some (VArr []) /\
    Js.get "references" da <> Some (VArr []).
Proof.
  destruct (technology_keeps_table_entries Sample.tables "name")
    as (da & op & ft & regular & forced & Hda & _ & _ & _ & Hname & _).
  - discriminate.
  - apply (bool_decide_unpack _). by vm_compute.
  - apply (bool_decide_unpack _). by vm_compute.
  - apply (bool_decide_unpack _). by vm_compute.
  - apply (bool_decide_unpack _). by vm_compute.
  - apply (bool_decide_unpack _). by vm_compute.
  - exists da. split; [exact Hda|]. split; [rewrite Hname; reflexivity|].
    split; [reflexivity|].
    assert (Some (VObj da)
            = Js.get "dataAvailability" (Zora.technology Sample.tables)) as Heq
        by (by rewrite Hda).
    vm_compute in Heq. injection Heq as ->. discriminate.
Defined.

(** X5: a risk entry built as a table entry followed by its own [sources]
    keeps every other property of the table entry, for table entries with
    distinct property names: the record changes nothing of the shared
    classification but the evidence. *)
Theorem riskView_keeps_table_entries :
  forall T period k,
    k <> "sources" ->
    NoDup (Js.keys (RISK_VIEW_DATA_ON_CHAIN T)) ->
    NoDup (Js.keys (RISK_VIEW_EXIT_WINDOW T Zora.upgradeDelay period)) ->
    NoDup (Js.keys (RISK_VIEW_SEQUENCER_SELF_SEQUENCE T
                      (HARDCODED_OPTIMISM_SEQUENCING_WINDOW_SECONDS T))) ->
    NoDup (Js.keys (RISK_VIEW_PROPOSER_CANNOT_WITHDRAW T)) ->
    exists da ew sf pf,
      Js.get "dataAvailability" (Zora.riskViewEntries T period) = Some (VObj da) /\
      Js.get "exitWindow" (Zora.riskViewEntries T period) = Some (VObj ew) /\
      Js.get "sequencerFailure" (Zora.riskViewEntries T period) = Some (VObj sf) /\
      Js.get "proposerFailure" (Zora.riskViewEntries T period) = Some (VObj pf) /\
      Js.get k da = Js.get k (RISK_VIEW_DATA_ON_CHAIN T) /\
      Js.get k ew = Js.get k (RISK_VIEW_EXIT_WINDOW T Zora.upgradeDelay period) /\
      Js.get k sf = Js.get k (RISK_VIEW_SEQUENCER_SELF_SEQUENCE T
                                (HARDCODED_OPTIMISM_SEQUENCING_WINDOW_SECONDS T)) /\
      Js.get k pf = Js.get k (RISK_VIEW_PROPOSER_CANNOT_WITHDRAW T).
Proof.
  intros T period k Hk Hda Hew Hsf Hpf.
  assert (String.eqb k "sources" = false) as Ek by (by apply String.eqb_neq).
  eexists _, _, _, _.
  split; [reflexivity|]. split; [reflexivity|]. split; [reflexivity|].
  split; [reflexivity|].
  cbn [Js.object fold_left Js.define].
  rewrite !get_spread_then_set by done. rewrite Ek.
  repeat split; reflexivity.
Qed.

(** The sample tables: the exit window entry of the record carries the
    challenge period of the table entry. *)
Lemma riskView_keeps_table_entries_witness :
  exists ew,
    Js.get "exitWindow" (Zora.riskViewEntries Sample.tables (VNum 604800))
      = Some (VObj ew) /\
    Js.get "challengePeriod" ew = Some (VNum 604800).
Proof.
  destruct (riskView_keeps_table_entries Sample.tables (VNum 604800)
              "challengePeriod")
    as (da & ew & sf & pf & _ & Hew & _ & _ & _ & Hk & _).
  - discriminate.
  - apply (bool_decide_unpack _). by vm_compute.
  - apply (bool_decide_unpack _). by vm_compute.
  - apply (bool_decide_unpack _). by vm_compute.
  - apply (bool_decide_unpack _). by vm_compute.
  - exists ew. split; [exact Hew|]. rewrite Hk. reflexivity.
Defined.

(** ** The literals of the record *)

(** X7: every URL that the module writes is an [https] URL, whatever the
    tables hold: the links of the display, the RPC endpoint, the
    references of the technology sections, the link of the milestone, the
    knowledge nuggets, and the sources attached to the risk entries. *)
Theorem record_urls_are_https :
  forall discovery T required r,
    Zora.zora discovery T required = Ok r ->
    let urls :=
      (Literals.linkUrls (Types.display r) ++
       Literals.apiUrls (Types.config r) ++
       Literals.referenceUrls (Types.technology r) ++
       flat_map (Literals.stringAt "link") (Types.milestones r) ++
       flat_map (Literals.stringAt "url") (Types.knowledgeNuggets r))%list in
    Forall (fun u => Literals.isHttps u = true) urls /\
    length urls = 28%nat /\
    exists entries,
      Types.riskView r = makeBridgeCompatible T entries /\
      Forall (fun u => Literals.isHttps u = true)
             (Literals.sourceUrls Observe.sourcedDimensions entries) /\
      length (Literals.sourceUrls Observe.sourcedDimensions entries) = 4%nat.
Proof.
  intros discovery T required r Hr.
  apply zora_Ok_inv in Hr as (v & e1 & e2 & perms & addresses & _ & _ & _ & _ & ->).
  intros urls. subst urls.
  unfold Literals.referenceUrls, Observe.technologyReferences, Observe.sections,
    Literals.linkUrls, Literals.apiUrls.
  js_eval.
  split; [repeat constructor|]. split; [reflexivity|].
  exists (Zora.riskViewEntries T v). split; [reflexivity|].
  unfold Literals.sourceUrls, Observe.sourcedDimensions. js_eval.
  split; [repeat constructor|reflexivity].
Qed.

(** The sample record. *)
Lemma record_urls_are_https_witness :
  Forall (fun u => Literals.isHttps u = true)
         (Literals.linkUrls (Types.display Sample.built)) /\
  Literals.apiUrls (Types.config Sample.built) = ["https://rpc.zora.co"].
Proof.
  pose proof (record_urls_are_https Sample.discovery Sample.tables
                Sample.lenient Sample.built sample_built) as (Hall & _).
  split; [|reflexivity].
  apply Forall_app in Hall as [Hlinks _]. exact Hlinks.
Defined.

(** X8: every address that the module brands is an address literal, [0x]
    and forty hexadecimal digits: the two escrow addresses handed to
    [getEscrowDetails], and in every built record the sender and receiver
    of the batch submissions and the contract of the state updates. *)
Theorem record_addresses_well_formed :
  forall discovery T required r,
    Zora.zora discovery T required = Ok r ->
    let escrowAddresses :=
      (Literals.stringAt "address" (VObj Zora.escrowParams1) ++
       Literals.stringAt "address" (VObj Zora.escrowParams2))%list in
    Forall (fun a => Literals.isAddress a = true) escrowAddresses /\
    length escrowAddresses = 2%nat /\
    Forall (fun a => Literals.isAddress a = true)
           (Literals.livenessAddresses (Types.config r)) /\
    length (Literals.livenessAddresses (Types.config r)) = 3%nat.
Proof.
  intros discovery T required r Hr.
  apply zora_Ok_inv in Hr as (v & e1 & e2 & perms & addresses & _ & _ & _ & _ & ->).
  intros escrowAddresses. subst escrowAddresses.
  split; [repeat constructor|]. split; [reflexivity|].
  unfold Literals.livenessAddresses. js_eval.
  split; [repeat constructor|reflexivity].
Qed.

(** The sample record, and a string that is no address. *)
Lemma record_addresses_well_formed_witness :
  Literals.livenessAddresses (Types.config Sample.built)
    = [ "0x625726c858dBF78c0125436C943Bf4b4bE9d9033";
        "0x6F54Ca6F6EdE96662024Ffd61BFd18f3f4e34DFf";
        "0x9E6204F750cD866b299594e2aC9eA824E2e5f95c" ] /\
  Forall (fun a => Literals.isAddress a = true)
         (Literals.livenessAddresses (Types.config Sample.built)) /\
  Literals.isAddress "0x9aaab648" = false.
Proof.
  split; [reflexivity|]. split; [|reflexivity].
  exact (proj1 (proj2 (proj2 (record_addresses_well_formed Sample.discovery
                                Sample.tables Sample.lenient Sample.built
                                sample_built)))).
Defined.

(** X9: the sequencing window is one value throughout the record: the
    window formatted into [display.liveness.explanation] and the window
    given to [RISK_VIEW.SEQUENCER_SELF_SEQUENCE] for the
    [sequencerFailure] entry are both
    [HARDCODED.OPTIMISM.SEQUENCING_WINDOW_SECONDS], and neither depends on
    the discovery. *)
Theorem sequencing_window_is_shared :
  forall discovery T required r,
    Zora.zora discovery T required = Ok r ->
    let window := HARDCODED_OPTIMISM_SEQUENCING_WINDOW_SECONDS T in
    exists v,
      Observe.livenessExplanation r =
        Some (VStr (
          "Zora is an Optimistic rollup that posts transaction data to the L1. For a transaction to be considered final, it has to be posted within a tx batch on L1 that links to a previous finalized batch. If the previous batch is missing, transaction finalization can be delayed up to "
          +:+ formatSeconds T window
          +:+ " or until it gets published. The state root gets finalized "
          +:+ formatSeconds T v
          +:+ " after it has been posted.")) /\
      Types.riskView r = makeBridgeCompatible T (Zora.riskViewEntries T v) /\
      Js.get "sequencerFailure" (Zora.riskViewEntries T v) =
        Some {{ [ ... RISK_VIEW_SEQUENCER_SELF_SEQUENCE T window;
                  "sources" ::= VArr [
                    Zora.source "OptimismPortal"
                      ["https://etherscan.io/address/0x43260ee547c3965bb2a0174763bb8FEcC650BA4A#code#F1#L434"] ] ] }}.
Proof.
  intros discovery T required r Hr.
  apply zora_Ok_inv in Hr as (v & e1 & e2 & perms & addresses & _ & _ & _ & _ & ->).
  intros window. exists v. repeat split; reflexivity.
Qed.

(** The sample record: twelve hours in both places. *)
Lemma sequencing_window_is_shared_witness :
  exists sf,
    Js.get "sequencerFailure" (Types.riskView Sample.built) = Some (VObj sf) /\
    Js.get "delay" sf = Some (VNum 43200) /\
    formatSeconds Sample.tables (VNum 43200) = "12h".
Proof.
  destruct (sequencing_window_is_shared Sample.discovery Sample.tables
              Sample.lenient Sample.built sample_built) as (v & _ & Hrv & _).
  rewrite Hrv. eexists. split; [|split]; reflexivity.
Defined.

(** The contract addresses of a built record are the answers of the two
    contract calls, the bridge last. *)
Lemma zora_Ok_contracts discovery T required r :
  Zora.zora discovery T required = Ok r ->
  exists opStack bridge,
    getOpStackContractDetails discovery Zora.upgradesProxy = Ok opStack /\
    getContractDetails discovery "L1ERC721Bridge"
      Zora.l1ERC721BridgeDetails = Ok bridge /\
    Js.get "addresses" (Types.contracts r)
      = Some (VArr (opStack ++ [bridge])).
Proof.
  unfold Zora.zora.
  destruct (Zora.FINALIZATION_PERIOD_SECONDS discovery); simpl; [|done].
  destruct (Zora.challengePeriod discovery); simpl; [|done].
  destruct (getEscrowDetails discovery Zora.escrowParams1); simpl; [|done].
  destruct (getEscrowDetails discovery Zora.escrowParams2); simpl; [|done].
  destruct (getMultisigPermission discovery "ZoraMultisig" _); simpl; [|done].
  destruct (getMultisigPermission discovery "ChallengerMultisig" _);
    simpl; [|done].
  destruct (getOpStackPermissions discovery _); simpl; [|done].
  destruct (getOpStackContractDetails discovery _) as [o|]; simpl; [|done].
  destruct (getContractDetails discovery _ _) as [b|]; simpl; [|done].
  intros [= <-]. by exists o, b.
Qed.

(** X10: [upgradesProxy] is spread last wherever the module uses it, so
    it decides its properties everywhere: the two escrow parameter objects
    and the details of the L1ERC721Bridge agree with [upgradesProxy] on
    every property it has, and the same object is what
    [getOpStackContractDetails] receives; the bridge keeps its own
    description. *)
Theorem upgradesProxy_is_uniform :
  forall k v,
    Js.get k Zora.upgradesProxy = Some v ->
    Js.get k Zora.escrowParams1 = Some v /\
    Js.get k Zora.escrowParams2 = Some v /\
    Js.get k Zora.l1ERC721BridgeDetails = Some v /\
    Js.keys Zora.l1ERC721BridgeDetails
      = ("description" :: Js.keys Zora.upgradesProxy) /\
    forall discovery T required r,
      Zora.zora discovery T required = Ok r ->
      exists opStack bridge,
        getOpStackContractDetails discovery Zora.upgradesProxy = Ok opStack /\
        getContractDetails discovery "L1ERC721Bridge"
          Zora.l1ERC721BridgeDetails = Ok bridge /\
        Js.get "addresses" (Types.contracts r)
          = Some (VArr (opStack ++ [bridge])).
Proof.
  intros k v Hk.
  assert (k = "upgradableBy" \/ k = "upgradeDelay") as Hcases.
  { simpl in Hk.
    destruct (String.eqb_spec k "upgradableBy"); [by left|].
    destruct (String.eqb_spec k "upgradeDelay"); [by right|done]. }
  split; [|split; [|split; [|split; [reflexivity|]]]].
  - destruct Hcases as [-> | ->]; simpl in Hk; by rewrite <- Hk.
  - destruct Hcases as [-> | ->]; simpl in Hk; by rewrite <- Hk.
  - destruct Hcases as [-> | ->]; simpl in Hk; by rewrite <- Hk.
  - intros discovery T required r. apply zora_Ok_contracts.
Qed.

(** The upgrade delay of the bridge details. *)
Lemma upgradesProxy_is_uniform_witness :
  Js.get "upgradeDelay" Zora.l1ERC721BridgeDetails = Some (VStr "No delay") /\
  Js.get "upgradeDelay" Zora.escrowParams1 = Some (VStr "No delay").
Proof.
  destruct (upgradesProxy_is_uniform "upgradeDelay" (VStr "No delay") eq_refl)
    as (H1 & _ & Hb & _).
  split; [exact Hb|exact H1].
Defined.
